(** * LocationService (src/js/locationService.js)

    A shallow embedding of the shared location service of the AquaWise
    front end: the [LocationService] object literal, its [location] and
    [weatherData] records, the [localStorage] entries it writes and the
    asynchronous operations that acquire a position, name it and fetch
    weather for it.

    Modelling conventions.
    - JavaScript values are [jsval]; an object is an association list of
      its own properties in insertion order ([obj]).  Numbers are exact
      rationals ([Q]): the claims concern comparisons and decimal
      formatting of coordinates, not rounding of binary doubles.
    - A [Date] is its time value in milliseconds since the epoch ([VDate]).
    - [localStorage] is a [gmap] from keys to stored texts.  A text written
      by [JSON.stringify] is kept as the JSON document it denotes
      ([SJson]); any other text is [SText].
    - Each asynchronous operation is a state transformer; its external
      inputs (the geolocation fix, HTTP responses, the clock) are
      arguments. *)

From Stdlib Require Import ZArith QArith String Ascii.
From stdpp Require Import base gmap strings list.

Set Warnings "-register-all".
Open Scope string_scope.

(** ** JavaScript values and objects *)

Inductive jsval : Type :=
| VUndef
| VNull
| VBool (b : bool)
| VNum (q : Q)
| VStr (s : string)
| VDate (t : Z)
| VArr (l : list jsval)
| VObj (o : list (string * jsval)).

Abbreviation obj := (list (string * jsval)).

(** Property read [o.k]; a missing property reads as [undefined]. *)
Fixpoint get (o : obj) (k : string) : jsval :=
  match o with
  | [] => VUndef
  | (k', v) :: o' => if String.eqb k k' then v else get o' k
  end.

(** Property write [o.k = v]: an existing property keeps its position,
    a new one is appended. *)
Fixpoint set (o : obj) (k : string) (v : jsval) : obj :=
  match o with
  | [] => [(k, v)]
  | (k', v') :: o' =>
      if String.eqb k k' then (k', v) :: o' else (k', v') :: set o' k v
  end.

(** ToBoolean: the truthiness used by [!x], [x || y] and [if (x)]. *)
Definition truthy (v : jsval) : bool :=
  match v with
  | VUndef | VNull => false
  | VBool b => b
  | VNum q => negb (Qeq_bool q 0)
  | VStr s => negb (String.eqb s "")
  | VDate _ | VArr _ | VObj _ => true
  end.

(** The strict order [x < y] on numbers. *)
Definition Qlt_bool (x y : Q) : bool := negb (Qle_bool y x).

(** ** Decimal text of integers *)

Definition digit (n : Z) : ascii := ascii_of_nat (48 + Z.to_nat n).

Fixpoint digits_aux (fuel : nat) (n : Z) (acc : string) : string :=
  match fuel with
  | O => acc
  | S f =>
      let acc' := String (digit (n mod 10)%Z) acc in
      if (n <? 10)%Z then acc' else digits_aux f (n / 10)%Z acc'
  end.

(** Decimal digits of a non-negative integer (a number has no more
    decimal digits than binary ones, so the fuel suffices). *)
Definition zstr (n : Z) : string :=
  digits_aux (S (Z.to_nat (Z.log2 n))) n "".

Fixpoint zeros (k : nat) : string :=
  match k with O => "" | S k' => String "0" (zeros k') end.

(** Left-pad with zeros to width [w]. *)
Definition pad (w : nat) (s : string) : string :=
  zeros (w - String.length s) ++ s.

(** [Number.prototype.toFixed(f)] (ECMA-262, 21.1.3.3) for |x| < 10^21:
    [n] is the integer closest to [x * 10^f], the larger one on a tie. *)
Definition to_fixed (f : nat) (x : Q) : string :=
  let neg := Qlt_bool x 0 in
  let ax := if neg then Qopp x else x in
  let p := (10 ^ Z.of_nat f)%Z in
  let d := Zpos (Qden ax) in
  let n := ((2 * Qnum ax * p + d) / (2 * d))%Z in
  let m := pad (f + 1) (zstr n) in
  let k := String.length m in
  let body :=
    match f with
    | O => m
    | _ => substring 0 (k - f) m ++ "." ++ substring (k - f) f m
    end in
  (if neg then "-" else "") ++ body.

Arguments to_fixed f x : simpl never.

Example to_fixed_lat : to_fixed 4 (3139 # 1000) = "3.1390".
Proof. reflexivity. Qed.

Example to_fixed_neg : to_fixed 2 (-(1 # 200)) = "-0.01".
Proof. reflexivity. Qed.

Example to_fixed_round : to_fixed 0 (241 # 2) = "121".
Proof. reflexivity. Qed.

(** ** Dates *)

(** Proleptic Gregorian calendar date of a day count since 1970-01-01
    (H. Hinnant's [civil_from_days], with floor division). *)
Definition civil_from_days (z0 : Z) : Z * Z * Z :=
  let z := (z0 + 719468)%Z in
  let era := (z / 146097)%Z in
  let doe := (z - era * 146097)%Z in
  let yoe := ((doe - doe / 1460 + doe / 36524 - doe / 146096) / 365)%Z in
  let doy := (doe - (365 * yoe + yoe / 4 - yoe / 100))%Z in
  let mp := ((5 * doy + 2) / 153)%Z in
  let d := (doy - (153 * mp + 2) / 5 + 1)%Z in
  let m := (if mp <? 10 then mp + 3 else mp - 9)%Z in
  let y := (yoe + era * 400 + (if m <=? 2 then 1 else 0))%Z in
  (y, m, d).

(** Day count since 1970-01-01 of a calendar date ([days_from_civil]). *)
Definition days_from_civil (y0 m d : Z) : Z :=
  let y := (if m <=? 2 then y0 - 1 else y0)%Z in
  let era := (y / 400)%Z in
  let yoe := (y - era * 400)%Z in
  let mp := (if 2 <? m then m - 3 else m + 9)%Z in
  let doy := ((153 * mp + 2) / 5 + d - 1)%Z in
  let doe := (yoe * 365 + yoe / 4 - yoe / 100 + doy)%Z in
  (era * 146097 + doe - 719468)%Z.

(** [Date.prototype.toISOString]: [YYYY-MM-DDTHH:mm:ss.sssZ], with the
    six-digit signed year outside 0..9999. *)
Definition to_iso (t : Z) : string :=
  let days := (t / 86400000)%Z in
  let msd := (t mod 86400000)%Z in
  let '(y, m, d) := civil_from_days days in
  let year :=
    if ((0 <=? y) && (y <=? 9999))%Z then pad 4 (zstr y)
    else (if (y <? 0)%Z then "-" else "+") ++ pad 6 (zstr (Z.abs y)) in
  year ++ "-" ++ pad 2 (zstr m) ++ "-" ++ pad 2 (zstr d) ++ "T"
    ++ pad 2 (zstr (msd / 3600000)%Z) ++ ":"
    ++ pad 2 (zstr ((msd / 60000) mod 60)%Z) ++ ":"
    ++ pad 2 (zstr ((msd / 1000) mod 60)%Z) ++ "."
    ++ pad 3 (zstr (msd mod 1000)%Z) ++ "Z".

Definition digit_val (c : ascii) : option Z :=
  let n := Z.of_nat (nat_of_ascii c) in
  if ((48 <=? n) && (n <=? 57))%Z then Some (n - 48)%Z else None.

Fixpoint num_of (s : string) (acc : Z) : option Z :=
  match s with
  | EmptyString => Some acc
  | String c s' =>
      match digit_val c with
      | Some k => num_of s' (10 * acc + k)%Z
      | None => None
      end
  end.

Definition field (i n : nat) (s : string) : option Z := num_of (substring i n s) 0.

Definition char_at (i : nat) (s : string) (c : ascii) : bool :=
  match String.get i s with Some c' => Ascii.eqb c c' | None => false end.

(** [Date.parse] on the date-time string format of ECMA-262 21.4.1.32 in
    the shape [toISOString] writes ([None] is NaN).  Other shapes are
    implementation-defined and read as NaN here. *)
Definition parse_iso (s : string) : option Z :=
  if negb (Nat.eqb (String.length s) 24 && char_at 4 s "-" && char_at 7 s "-"
           && char_at 10 s "T" && char_at 13 s ":" && char_at 16 s ":"
           && char_at 19 s "." && char_at 23 s "Z")
  then None else
  match field 0 4 s, field 5 2 s, field 8 2 s, field 11 2 s, field 14 2 s,
        field 17 2 s, field 20 3 s with
  | Some y, Some mo, Some d, Some h, Some mi, Some sec, Some ms =>
      if ((1 <=? mo) && (mo <=? 12) && (1 <=? d) && (d <=? 31)
          && (h <=? 23) && (mi <=? 59) && (sec <=? 59))%Z
      then Some (days_from_civil y mo d * 86400000 + h * 3600000
                 + mi * 60000 + sec * 1000 + ms)%Z
      else None
  | _, _, _, _, _, _, _ => None
  end.

(** [new Date(v).getTime()] for the values a [lastUpdate] field can hold
    ([None] is NaN). *)
Definition date_value (v : jsval) : option Z :=
  match v with
  | VDate t => Some t
  | VStr s => parse_iso s
  | VNum q => Some (Qnum q / Zpos (Qden q))%Z
  | VNull => Some 0%Z
  | VBool b => Some (if b then 1 else 0)%Z
  | VUndef | VArr _ | VObj _ => None
  end.

Example to_iso_sample : to_iso 1760616000123 = "2025-10-16T12:00:00.123Z".
Proof. reflexivity. Qed.

Example parse_iso_sample : parse_iso (to_iso 1760616000123) = Some 1760616000123%Z.
Proof. vm_compute. reflexivity. Qed.

Arguments to_iso t : simpl never.

(** ** JSON *)

(** The value [JSON.parse(JSON.stringify(v))] denotes: a [Date] becomes
    its [toJSON()] string, properties whose value serialises to
    [undefined] are dropped, [undefined] array elements become [null]. *)
Fixpoint to_json (v : jsval) : jsval :=
  match v with
  | VDate t => VStr (to_iso t)
  | VArr l =>
      VArr (map (fun x => match to_json x with VUndef => VNull | y => y end) l)
  | VObj o =>
      VObj ((fix fields (o : obj) : obj :=
               match o with
               | [] => []
               | (k, x) :: o' =>
                   match to_json x with
                   | VUndef => fields o'
                   | y => (k, y) :: fields o'
                   end
               end) o)
  | v => v
  end.

(** The properties of [to_json (VObj o)], as a function of its own. *)
Fixpoint json_fields (o : obj) : obj :=
  match o with
  | [] => []
  | (k, x) :: o' =>
      match to_json x with
      | VUndef => json_fields o'
      | y => (k, y) :: json_fields o'
      end
  end.

(** The own enumerable properties copied by an object spread [{ ...v }]. *)
Definition spread (v : jsval) : obj :=
  match v with
  | VObj o => o
  | VArr l => imap (fun i x => (zstr (Z.of_nat i), x)) l
  | VStr s =>
      imap (fun i c => (zstr (Z.of_nat i), VStr (String c EmptyString)))
           (list_ascii_of_string s)
  | _ => []
  end.

(** ** Service state *)

(** A text held by [localStorage]: one [JSON.parse] accepts, denoting a
    value, or any other text (on which [JSON.parse] throws). *)
Inductive stored : Type :=
| SJson (v : jsval)
| SText (s : string).

(** The network requests issued ([fetch] calls), with the coordinates
    interpolated into their URLs. *)
Inductive request : Type :=
| ReqGeocode (lat lon : jsval)
| ReqWeather (lat lon : jsval)
| ReqForecast (lat lon : jsval).

Record svc : Type := mk_svc {
  location : obj;
  weatherData : obj;
  storage : gmap string stored;
  requests : list request
}.

Definition with_location (s : svc) (o : obj) : svc :=
  mk_svc o s.(weatherData) s.(storage) s.(requests).
Definition with_weatherData (s : svc) (o : obj) : svc :=
  mk_svc s.(location) o s.(storage) s.(requests).
Definition with_storage (s : svc) (m : gmap string stored) : svc :=
  mk_svc s.(location) s.(weatherData) m s.(requests).
Definition issue (s : svc) (r : request) : svc :=
  mk_svc s.(location) s.(weatherData) s.(storage) (s.(requests) ++ [r]).

(** The initial [location] and [weatherData] of the object literal. *)
Definition location0 : obj :=
  [("latitude", VNull); ("longitude", VNull); ("accuracy", VNull);
   ("locationName", VNull); ("source", VStr "none"); ("lastUpdate", VNull)].

Definition weatherData0 : obj :=
  [("current", VNull); ("forecast", VNull); ("lastUpdate", VNull)].

(** A page load: fresh object literal, [localStorage] kept. *)
Definition reload (s : svc) : svc := mk_svc location0 weatherData0 s.(storage) [].

(** ** Persistence *)

(** The object [saveLocationToStorage] hands to [JSON.stringify]. *)
Definition location_fields (l : obj) : obj :=
  [("latitude", get l "latitude"); ("longitude", get l "longitude");
   ("accuracy", get l "accuracy"); ("locationName", get l "locationName");
   ("source", get l "source"); ("lastUpdate", get l "lastUpdate")].

Definition location_keys : list string :=
  ["latitude"; "longitude"; "accuracy"; "locationName"; "source"; "lastUpdate"].

Definition saveLocationToStorage (s : svc) : svc :=
  with_storage s (<["userLocation" := SJson (to_json (VObj (location_fields s.(location))))]>
    s.(storage)).

(** The second component is the exception thrown, if any. *)
Definition restoreLocationFromStorage (s : svc) : svc * option string :=
  match s.(storage) !! "userLocation" with
  | None => (s, None)
  | Some (SJson v) => (with_location s (spread v), None)
  | Some (SText t) =>
      if String.eqb t "" then (s, None) else (s, Some "SyntaxError")
  end.

(** The object [saveWeatherToStorage] hands to [JSON.stringify]. *)
Definition weather_fields (w : obj) : obj :=
  [("current", get w "current"); ("forecast", get w "forecast");
   ("lastUpdate", get w "lastUpdate")].

Definition saveWeatherToStorage (s : svc) : svc :=
  with_storage s (<["weatherData" := SJson (to_json (VObj (weather_fields s.(weatherData))))]>
    s.(storage)).

Definition restoreWeatherFromStorage (s : svc) : svc * option string :=
  match s.(storage) !! "weatherData" with
  | None => (s, None)
  | Some (SJson v) => (with_weatherData s (spread v), None)
  | Some (SText t) =>
      if String.eqb t "" then (s, None) else (s, Some "SyntaxError")
  end.

(** ** Configuration and external inputs *)

Definition ACCURACY_THRESHOLD : Z := 50.
Definition TIMEOUT : Z := 20000.

(** The [code] constants of [GeolocationPositionError]. *)
Module GeolocationPositionError.
Definition PERMISSION_DENIED : Z := 1.
Definition POSITION_UNAVAILABLE : Z := 2.
Definition TIMEOUT : Z := 3.
End GeolocationPositionError.

(** [position.coords] of a successful fix. *)
Record coords : Type := mk_coords {
  latitude : Q;
  longitude : Q;
  accuracy : Q
}.

(** What [navigator.geolocation.getCurrentPosition] calls back with. *)
Inductive geo_outcome : Type :=
| GeoPosition (c : coords)
| GeoError (code : Z).

(** A [fetch]: the promise rejects, or the response is not [ok], or it is
    [ok] and [response.json()] yields a body ([None]: it rejects). *)
Inductive response (B : Type) : Type :=
| RespNetError
| RespNotOk
| RespOk (body : option B).
Arguments RespNetError {B}.
Arguments RespNotOk {B}.
Arguments RespOk {B} body.

(** An element of the reverse-geocoding answer; an absent or [null]
    component is [None]. *)
Record candidate : Type := mk_candidate {
  name : option string;
  state : option string;
  country : option string
}.

(** How the promise returned by an [async] operation settles. *)
Inductive settle : Type :=
| Resolved (v : jsval)
| Rejected (msg : string).

(** ** Error messages *)

Definition getGeolocationsErrorMessage (code : Z) : string :=
  if (code =? GeolocationPositionError.PERMISSION_DENIED)%Z then
    "Location access denied. Please enable location permissions."
  else if (code =? GeolocationPositionError.TIMEOUT)%Z then
    "Location request timed out (" ++ zstr (TIMEOUT / 1000)%Z
      ++ "s). Could not get accurate fix. Try again outdoors."
  else if (code =? GeolocationPositionError.POSITION_UNAVAILABLE)%Z then
    "Location data unavailable."
  else "An unexpected geolocation error occurred.".

(** The message of the error rejected for an inaccurate fix. *)
Definition accuracy_message (a : Q) : string :=
  "Accuracy too low: " ++ to_fixed 0 a ++ "m (need "
    ++ zstr ACCURACY_THRESHOLD ++ "m or better)".

(** ** reverseGeocode *)

(** The "intelligent naming" of a geocoding candidate. *)
Definition place_name (geo : candidate) : string :=
  let city := default "" geo.(name) in
  let st := default "" geo.(state) in
  let ctry := default "" geo.(country) in
  if negb (String.eqb city "") && negb (String.eqb st "") then city ++ ", " ++ st
  else if negb (String.eqb city "") then city ++ ", " ++ ctry
  else if negb (String.eqb st "") then st ++ ", " ++ ctry
  else ctry.

Definition set_locationName (s : svc) (v : jsval) : svc :=
  with_location s (set s.(location) "locationName" v).

(** The part of [reverseGeocode] before its first [await]: the guard on
    the coordinates and the [fetch] call.  [None]: it returned at once. *)
Definition reverseGeocode_begin (s : svc) : option svc :=
  let lat := get s.(location) "latitude" in
  let lon := get s.(location) "longitude" in
  if negb (truthy lat) || negb (truthy lon) then None
  else Some (issue s (ReqGeocode lat lon)).

(** The rest of [reverseGeocode], run when the response has arrived,
    on the state at that time.  The [catch] block reads the coordinates
    again and calls [toFixed] on them, which throws on a non-number.
    [localStorage.setItem] is taken to succeed. *)
Definition reverseGeocode_end (r : response (list candidate)) (s : svc)
  : svc * option string :=
  match r with
  | RespOk (Some data) =>
      let s1 :=
        match data with
        | [] => s
        | geo :: _ => set_locationName s (VStr (place_name geo))
        end in
      (saveLocationToStorage s1, None)
  | _ =>
      match get s.(location) "latitude", get s.(location) "longitude" with
      | VNum a, VNum b =>
          (set_locationName s (VStr (to_fixed 4 a ++ ", " ++ to_fixed 4 b)), None)
      | _, _ => (s, Some "TypeError")
      end
  end.

(** [reverseGeocode] run without interleaving. *)
Definition reverseGeocode (r : response (list candidate)) (s : svc)
  : svc * option string :=
  match reverseGeocode_begin s with
  | None => (s, None)
  | Some s1 => reverseGeocode_end r s1
  end.

(** ** getCurrentLocation *)

(** [getCurrentLocation()]: [has_geolocation] is [!!navigator.geolocation],
    [now] the clock when the fix is accepted.  The third component says
    whether the un-awaited [reverseGeocode()] it starts got past its
    guard; its continuation is [reverseGeocode_end]. *)
Definition getCurrentLocation (has_geolocation : bool) (now : Z)
  (r : geo_outcome) (s : svc) : svc * settle * bool :=
  if negb has_geolocation then (s, Rejected "Geolocation not supported", false)
  else
  match r with
  | GeoPosition c =>
      let acc := c.(accuracy) in
      if Qlt_bool (inject_Z ACCURACY_THRESHOLD) acc then
        (s, Rejected (accuracy_message acc), false)
      else
        let l := s.(location) in
        let l := set l "latitude" (VNum c.(latitude)) in
        let l := set l "longitude" (VNum c.(longitude)) in
        let l := set l "accuracy" (VNum acc) in
        let l := set l "source" (VStr "auto") in
        let l := set l "lastUpdate" (VDate now) in
        let s2 := saveLocationToStorage (with_location s l) in
        match reverseGeocode_begin s2 with
        | None => (s2, Resolved (VObj s2.(location)), false)
        | Some s3 => (s3, Resolved (VObj s3.(location)), true)
        end
  | GeoError code => (s, Rejected (getGeolocationsErrorMessage code), false)
  end.

(** An acquisition followed, when it started one, by the completion of
    its reverse geocoding with response [g]. *)
Definition acquire_and_name (has_geolocation : bool) (now : Z) (r : geo_outcome)
  (g : response (list candidate)) (s : svc) : svc * settle * option string :=
  match getCurrentLocation has_geolocation now r s with
  | (s1, res, true) => let '(s2, e) := reverseGeocode_end g s1 in (s2, res, e)
  | (s1, res, false) => (s1, res, None)
  end.

(** ** Weather *)

Definition fetchWeatherData (now : Z) (r : response jsval) (s : svc) : svc * jsval :=
  let lat := get s.(location) "latitude" in
  let lon := get s.(location) "longitude" in
  if negb (truthy lat) || negb (truthy lon) then (s, VNull)
  else
  let s1 := issue s (ReqWeather lat lon) in
  match r with
  | RespOk (Some body) =>
      let s2 := with_weatherData s1 (set s1.(weatherData) "current" body) in
      let s3 := with_weatherData s2 (set s2.(weatherData) "lastUpdate" (VDate now)) in
      let s4 := saveWeatherToStorage s3 in
      (s4, get s4.(weatherData) "current")
  | _ => (s1, VNull)
  end.

Definition fetchForecastData (now : Z) (r : response jsval) (s : svc) : svc * jsval :=
  let lat := get s.(location) "latitude" in
  let lon := get s.(location) "longitude" in
  if negb (truthy lat) || negb (truthy lon) then (s, VNull)
  else
  let s1 := issue s (ReqForecast lat lon) in
  match r with
  | RespOk (Some body) =>
      let s2 := with_weatherData s1 (set s1.(weatherData) "forecast" body) in
      let s3 := with_weatherData s2 (set s2.(weatherData) "lastUpdate" (VDate now)) in
      let s4 := saveWeatherToStorage s3 in
      (s4, get s4.(weatherData) "forecast")
  | _ => (s1, VNull)
  end.

Definition getAllWeatherData (t1 t2 : Z) (r1 r2 : response jsval) (s : svc)
  : svc * jsval :=
  let '(s1, current) := fetchWeatherData t1 r1 s in
  let '(s2, forecast) := fetchForecastData t2 r2 s1 in
  (s2, VObj [("current", current); ("forecast", forecast)]).

(** ** isLocationValid *)

(** [isLocationValid(maxAgeMins)] with [Date.now()] = [now]. *)
Definition isLocationValid (now : Z) (maxAgeMins : Q) (s : svc) : bool :=
  let l := s.(location) in
  if negb (truthy (get l "latitude")) || negb (truthy (get l "longitude")) then false
  else
  let lu := get l "lastUpdate" in
  if truthy lu then
    match date_value lu with
    | Some t => Qlt_bool (inject_Z (now - t) / inject_Z 60000) maxAgeMins
    | None => false
    end
  else true.

(** The default argument [maxAgeMins = 5]. *)
Definition isLocationValid_default (now : Z) (s : svc) : bool :=
  isLocationValid now 5 s.

(** Failed fetches: transport error, non-[ok] response, unreadable body. *)
Definition fetch_failed {B} (r : response B) : bool :=
  match r with RespOk (Some _) => false | _ => true end.

(** ** Display helpers *)

(** How a synchronous call ends: a return value or a thrown error. *)
Inductive outcome : Type :=
| Returns (v : jsval)
| Throws (e : string).

(** [x.toFixed(f)]: only numbers have it; on anything else the call is a
    [TypeError]. *)
Definition call_toFixed (f : nat) (x : jsval) : option string :=
  match x with VNum q => Some (to_fixed f q) | _ => None end.

Definition getDisplayLocation (s : svc) : outcome :=
  let l := s.(location) in
  if truthy (get l "locationName") then Returns (get l "locationName")
  else if truthy (get l "latitude") && truthy (get l "longitude") then
    match call_toFixed 6 (get l "latitude"), call_toFixed 6 (get l "longitude") with
    | Some a, Some b => Returns (VStr (a ++ ", " ++ b))
    | _, _ => Throws "TypeError"
    end
  else Returns (VStr "Location not detected").

Definition getCoordinatesString (s : svc) : outcome :=
  let l := s.(location) in
  if truthy (get l "latitude") && truthy (get l "longitude") then
    match call_toFixed 6 (get l "latitude"), call_toFixed 6 (get l "longitude") with
    | Some a, Some b => Returns (VStr ("Lat: " ++ a ++ ", Lon: " ++ b))
    | _, _ => Throws "TypeError"
    end
  else Returns (VStr "Lat: --, Lon: --").

(** The guard is [accuracy !== null]: [undefined] passes it. *)
Definition getAccuracyString (s : svc) : outcome :=
  match get s.(location) "accuracy" with
  | VNull => Returns (VStr "Accuracy: --")
  | a =>
      match call_toFixed 0 a with
      | Some t => Returns (VStr ("Accuracy: " ++ t ++ " meters"))
      | None => Throws "TypeError"
      end
  end.

(** ** init and the auto-refresh timer *)

(** [init()]: restore the location, then [autoRefreshLocation()].  The
    third component says whether the refresh interval was scheduled; an
    exception from the restore leaves [init] before that. *)
Definition init (s : svc) : svc * option string * bool :=
  match restoreLocationFromStorage s with
  | (s1, Some e) => (s1, Some e, false)
  | (s1, None) => (s1, None, true)
  end.

(** One firing of the interval set by [autoRefreshLocation]:
    [getCurrentLocation().catch(...)], with the reverse geocoding it
    starts completing with [g] before the next firing.  The [catch]
    swallows the rejection, so only the state remains. *)
Definition autoRefresh_tick (has_geolocation : bool) (now : Z) (r : geo_outcome)
  (g : response (list candidate)) (s : svc) : svc :=
  (acquire_and_name has_geolocation now r g s).1.1.

(** A run of firings, in order. *)
Fixpoint autoRefresh_run (has_geolocation : bool)
  (ticks : list (Z * geo_outcome * response (list candidate))) (s : svc) : svc :=
  match ticks with
  | [] => s
  | (now, r, g) :: ticks' =>
      autoRefresh_run has_geolocation ticks' (autoRefresh_tick has_geolocation now r g s)
  end.

(** The last firing whose fix passes the accuracy gate. *)
Fixpoint last_accepted (ticks : list (Z * geo_outcome * response (list candidate)))
  : option (Z * coords) :=
  match ticks with
  | [] => None
  | (now, r, _) :: ticks' =>
      match last_accepted ticks' with
      | Some x => Some x
      | None =>
          match r with
          | GeoPosition c =>
              if Qle_bool c.(accuracy) (inject_Z ACCURACY_THRESHOLD)
              then Some (now, c) else None
          | GeoError _ => None
          end
      end
  end.

(** A value [JSON.parse] can produce: no [undefined], no [Date]. *)
Fixpoint is_json (v : jsval) : bool :=
  match v with
  | VUndef | VDate _ => false
  | VArr l => forallb is_json l
  | VObj o => forallb (fun kv => is_json kv.2) o
  | _ => true
  end.

(** ** Sample inputs *)

Definition svc0 : svc := mk_svc location0 weatherData0 ∅ [].

(** The fix of the Kuala Lumpur scenario. *)
Definition kl_fix : coords := mk_coords (3139 # 1000) (1016869 # 10000) 12.

Definition kl_candidate : candidate :=
  mk_candidate (Some "Kuala Lumpur") (Some "") (Some "MY").

(** 2025-10-16T12:00:00.000Z *)
Definition t0 : Z := 1760616000000.

(** The state right after the Kuala Lumpur fix has been accepted. *)
Definition kl_state : svc := (getCurrentLocation true t0 (GeoPosition kl_fix) svc0).1.1.

(** A record on the equator: latitude 0, longitude 101.6869, no
    [lastUpdate]. *)
Definition equator_state : svc :=
  with_location svc0 (set (set location0 "latitude" (VNum 0))
                          "longitude" (VNum (1016869 # 10000))).

(** The Kuala Lumpur record with its [lastUpdate] [age] ms before [t0]. *)
Definition aged_state (age : Z) : svc :=
  with_location kl_state (set kl_state.(location) "lastUpdate" (VDate (t0 - age))).

(** * Properties *)

Example kl_scenario :
  match acquire_and_name true t0 (GeoPosition kl_fix) (RespOk (Some [kl_candidate])) svc0 with
  | (s, Resolved _, None) => get s.(location) "locationName"
  | _ => VUndef
  end = VStr "Kuala Lumpur, MY".
Proof. vm_compute. reflexivity. Qed.

(** ** Helper lemmas *)

Lemma get_set (o : obj) (k k' : string) (v : jsval) :
  get (set o k v) k' = if String.eqb k' k then v else get o k'.
Proof.
  induction o as [|[k0 v0] o IH]; simpl.
  - destruct (String.eqb k' k); reflexivity.
  - destruct (String.eqb_spec k k0) as [->|Hne]; simpl.
    + destruct (String.eqb k' k0); reflexivity.
    + rewrite IH. destruct (String.eqb_spec k' k0) as [->|]; [|reflexivity].
      destruct (String.eqb_spec k0 k); [congruence|reflexivity].
Qed.

Lemma Qlt_bool_iff (x y : Q) : Qlt_bool x y = true <-> (x < y)%Q.
Proof.
  unfold Qlt_bool. rewrite negb_true_iff. split; intros H.
  - apply Qnot_le_lt. intros Hle. apply Qle_bool_iff in Hle. congruence.
  - destruct (Qle_bool y x) eqn:E; [|reflexivity].
    apply Qle_bool_iff in E. exfalso. apply (Qlt_not_le _ _ H E).
Qed.

Lemma issue_location (s : svc) (r : request) : (issue s r).(location) = s.(location).
Proof. reflexivity. Qed.

Lemma issue_storage (s : svc) (r : request) : (issue s r).(storage) = s.(storage).
Proof. reflexivity. Qed.

Lemma reverseGeocode_begin_state (s s' : svc) :
  reverseGeocode_begin s = Some s' ->
  s'.(location) = s.(location) /\ s'.(weatherData) = s.(weatherData)
  /\ s'.(storage) = s.(storage).
Proof.
  unfold reverseGeocode_begin. destruct (_ || _); intros H; inversion H; subst.
  auto.
Qed.

(** ** C1: the accuracy gate of getCurrentLocation *)

(** The keys [getCurrentLocation] writes on success. *)
Definition committed_keys : list string :=
  ["latitude"; "longitude"; "accuracy"; "source"; "lastUpdate"].

(** Claim C1 (as amended): with geolocation available, a fix of accuracy
    [a <= ACCURACY_THRESHOLD] commits latitude, longitude, accuracy,
    source = 'auto' and lastUpdate, leaves every other field alone,
    persists the record and resolves with it; a fix with [a > 50] leaves
    the whole service state unchanged and rejects with the message
    [accuracy_message a], which reports [a] rounded to whole metres. *)
Theorem getCurrentLocation_accuracy_gate (now : Z) (c : coords) (s : svc) :
  match getCurrentLocation true now (GeoPosition c) s with
  | (s', res, pending) =>
      ((c.(accuracy) <= inject_Z ACCURACY_THRESHOLD)%Q ->
         res = Resolved (VObj s'.(location))
         /\ get s'.(location) "latitude" = VNum c.(latitude)
         /\ get s'.(location) "longitude" = VNum c.(longitude)
         /\ get s'.(location) "accuracy" = VNum c.(accuracy)
         /\ get s'.(location) "source" = VStr "auto"
         /\ get s'.(location) "lastUpdate" = VDate now
         /\ (forall k, k ∉ committed_keys -> get s'.(location) k = get s.(location) k)
         /\ s'.(storage) !! "userLocation"
              = Some (SJson (to_json (VObj (location_fields s'.(location))))))
      /\ ((inject_Z ACCURACY_THRESHOLD < c.(accuracy))%Q ->
         s' = s /\ res = Rejected (accuracy_message c.(accuracy)) /\ pending = false)
  end.
Proof.
  unfold getCurrentLocation; simpl negb; cbv iota.
  destruct (Qlt_bool (inject_Z ACCURACY_THRESHOLD) (accuracy c)) eqn:Hgate;
    cbv iota beta zeta.
  - apply Qlt_bool_iff in Hgate. split.
    + intros Hle. exfalso. exact (Qlt_not_le _ _ Hgate Hle).
    + intros _. auto.
  - set (s2 := saveLocationToStorage _).
    assert (Hl : forall s3, s3.(location) = s2.(location) ->
              s3.(storage) = s2.(storage) ->
      get s3.(location) "latitude" = VNum c.(latitude)
      /\ get s3.(location) "longitude" = VNum c.(longitude)
      /\ get s3.(location) "accuracy" = VNum c.(accuracy)
      /\ get s3.(location) "source" = VStr "auto"
      /\ get s3.(location) "lastUpdate" = VDate now
      /\ (forall k, k ∉ committed_keys -> get s3.(location) k = get s.(location) k)
      /\ s3.(storage) !! "userLocation"
           = Some (SJson (to_json (VObj (location_fields s3.(location)))))).
    { intros s3 -> ->. subst s2.
      cbn [location storage saveLocationToStorage with_location with_storage].
      rewrite !get_set.
      do 5 (split; [reflexivity|]). split.
      - intros k Hk. unfold committed_keys in Hk.
        rewrite !get_set.
        repeat match goal with
        | |- context [String.eqb ?a ?b] =>
            destruct (String.eqb_spec a b) as [->|]; [set_solver|]
        end. reflexivity.
      - apply lookup_insert_eq. }
    assert (Hnlt : ~ (inject_Z ACCURACY_THRESHOLD < accuracy c)%Q).
    { intros Hlt. apply Qlt_bool_iff in Hlt. congruence. }
    destruct (reverseGeocode_begin s2) as [s3|] eqn:Hb; cbv iota beta.
    + apply reverseGeocode_begin_state in Hb as (Hloc & _ & Hst).
      split; [intros _; split; [reflexivity|exact (Hl s3 Hloc Hst)]|].
      intros Hlt; contradiction.
    + split; [intros _; split; [reflexivity|exact (Hl s2 eq_refl eq_refl)]|].
      intros Hlt; contradiction.
Qed.

(** Claim C1, refuted as stated: the rejection does not carry the
    measured accuracy.  Fixes of accuracy 120.5 m and 121 m are rejected
    with the same message, with the state unchanged. *)
Lemma getCurrentLocation_rejection_rounds_accuracy :
  ~ (241 # 2 == 121)%Q
  /\ getCurrentLocation true t0 (GeoPosition (mk_coords (3139 # 1000) (1016869 # 10000) (241 # 2))) svc0
     = (svc0, Rejected "Accuracy too low: 121m (need 50m or better)", false)
  /\ getCurrentLocation true t0 (GeoPosition (mk_coords (3139 # 1000) (1016869 # 10000) 121)) svc0
     = (svc0, Rejected "Accuracy too low: 121m (need 50m or better)", false).
Proof.
  split; [|split; vm_compute; reflexivity].
  unfold Qeq; simpl; lia.
Qed.

Example accuracy_120_scenario :
  getCurrentLocation true t0 (GeoPosition (mk_coords (3139 # 1000) (1016869 # 10000) 120)) svc0
  = (svc0, Rejected "Accuracy too low: 120m (need 50m or better)", false).
Proof. vm_compute. reflexivity. Qed.

(** ** JSON and storage lemmas *)

Lemma to_json_obj (o : obj) : to_json (VObj o) = VObj (json_fields o).
Proof. reflexivity. Qed.

Lemma to_json_undef (x : jsval) : to_json x = VUndef -> x = VUndef.
Proof. destruct x; cbn [to_json]; congruence. Qed.

Lemma get_notin (o : obj) (k : string) : k ∉ map fst o -> get o k = VUndef.
Proof.
  induction o as [|[k0 x] o IH]; cbn [get map fst]; [reflexivity|].
  intros Hk. rewrite elem_of_cons in Hk.
  destruct (String.eqb_spec k k0); [tauto|]. apply IH. tauto.
Qed.

Lemma get_json_fields (o : obj) (k : string) :
  NoDup (map fst o) -> get (json_fields o) k = to_json (get o k).
Proof.
  induction o as [|[k0 x] o IH]; cbn [json_fields get map fst]; [reflexivity|].
  rewrite NoDup_cons. intros [Hk0 Hnd].
  destruct (to_json x) eqn:E;
    try (cbn [get]; destruct (String.eqb_spec k k0); [congruence|auto]).
  apply to_json_undef in E as ->. rewrite IH by exact Hnd.
  destruct (String.eqb_spec k k0) as [->|]; [|reflexivity].
  rewrite get_notin by exact Hk0. reflexivity.
Qed.

Lemma location_fields_nodup (l : obj) : NoDup (map fst (location_fields l)).
Proof.
  cbn [location_fields map fst].
  repeat (apply NoDup_cons; split; [rewrite ?elem_of_cons, ?elem_of_nil; intuition discriminate|]).
  apply NoDup_nil_2.
Qed.

Lemma get_location_fields (l : obj) (k : string) :
  k ∈ location_keys -> get (location_fields l) k = get l k.
Proof.
  unfold location_keys. rewrite !elem_of_cons, elem_of_nil.
  intros Hk. repeat destruct Hk as [->|Hk]; try reflexivity. contradiction.
Qed.

(** ** C6: platform failures of getCurrentLocation *)

(** Claim C6: without geolocation support the call rejects with
    "Geolocation not supported", and on a platform error it rejects with
    [getGeolocationsErrorMessage] of the error code; in both cases the
    service state (record, storage, requests) is left as it was and no
    reverse geocoding is started. *)
Theorem getCurrentLocation_platform_failure (now : Z) (r : geo_outcome) (code : Z) (s : svc) :
  getCurrentLocation false now r s = (s, Rejected "Geolocation not supported", false)
  /\ getCurrentLocation true now (GeoError code) s
     = (s, Rejected (getGeolocationsErrorMessage code), false).
Proof. split; reflexivity. Qed.

Example geolocation_messages :
  getGeolocationsErrorMessage GeolocationPositionError.PERMISSION_DENIED
    = "Location access denied. Please enable location permissions."
  /\ getGeolocationsErrorMessage GeolocationPositionError.TIMEOUT
    = "Location request timed out (20s). Could not get accurate fix. Try again outdoors."
  /\ getGeolocationsErrorMessage GeolocationPositionError.POSITION_UNAVAILABLE
    = "Location data unavailable."
  /\ getGeolocationsErrorMessage 0 = "An unexpected geolocation error occurred.".
Proof. vm_compute. repeat split. Qed.

(** ** C8: restore is idempotent *)

(** Claim C8: for every service state (any [localStorage] content),
    restoring twice gives the same state, record and thrown exception as
    restoring once. *)
Theorem restoreLocationFromStorage_idempotent (s : svc) :
  restoreLocationFromStorage (restoreLocationFromStorage s).1
  = restoreLocationFromStorage s.
Proof.
  unfold restoreLocationFromStorage.
  destruct (storage s !! "userLocation") as [[v|t]|] eqn:E; cbn [fst].
  - cbn [with_location storage]. rewrite E. reflexivity.
  - destruct (String.eqb t "") eqn:Et; cbn [fst]; rewrite E; cbv iota; rewrite Et;
      reflexivity.
  - rewrite E. reflexivity.
Qed.

(** ** C7: persist then restore *)

(** Claim C7 (as amended): after [saveLocationToStorage] and a page
    reload, [restoreLocationFromStorage] succeeds and yields a record
    whose six fields are the JSON images of the saved ones: [null],
    numbers and strings come back unchanged, a [Date] comes back as its
    ISO-8601 string, an [undefined] field stays absent. *)
Theorem location_roundtrip (s : svc) :
  let '(s', e) := restoreLocationFromStorage (reload (saveLocationToStorage s)) in
  e = None
  /\ s'.(location) = json_fields (location_fields s.(location))
  /\ (forall k, k ∈ location_keys -> get s'.(location) k = to_json (get s.(location) k))
  /\ (forall t, get s.(location) "lastUpdate" = VDate t ->
        get s'.(location) "lastUpdate" = VStr (to_iso t)).
Proof.
  unfold restoreLocationFromStorage, reload, saveLocationToStorage.
  cbn [storage with_storage]. rewrite lookup_insert_eq.
  cbn [spread with_location location]. rewrite to_json_obj. cbn [spread].
  assert (Hk : forall k, k ∈ location_keys ->
            get (json_fields (location_fields (location s))) k = to_json (get (location s) k)).
  { intros k Hk. rewrite get_json_fields by apply location_fields_nodup.
    rewrite get_location_fields by exact Hk. reflexivity. }
  split; [reflexivity|]. split; [reflexivity|]. split; [exact Hk|].
  intros t Ht. rewrite Hk by (unfold location_keys; rewrite !elem_of_cons; tauto).
  rewrite Ht. reflexivity.
Qed.

(** Claim C7, refuted as stated: after the Kuala Lumpur fix at [t0] the
    record holds the [Date] [t0]; the restored record holds a string. *)
Lemma location_roundtrip_lastUpdate_string :
  get (getCurrentLocation true t0 (GeoPosition kl_fix) svc0).1.1.(location) "lastUpdate"
    = VDate t0
  /\ get (restoreLocationFromStorage
            (reload (getCurrentLocation true t0 (GeoPosition kl_fix) svc0).1.1)).1.(location)
         "lastUpdate" = VStr "2025-10-16T12:00:00.000Z"
  /\ VDate t0 <> VStr "2025-10-16T12:00:00.000Z".
Proof. split; [|split]; [vm_compute; reflexivity|vm_compute; reflexivity|discriminate]. Qed.

(** For a record whose fields are numbers, strings or [null] (and no
    [Date]), the round trip restores every field identically. *)
Lemma location_roundtrip_plain (s : svc) :
  (forall k, k ∈ location_keys -> match get s.(location) k with
     | VNull | VNum _ | VStr _ => True | _ => False end) ->
  forall k, k ∈ location_keys ->
  get (restoreLocationFromStorage (reload (saveLocationToStorage s))).1.(location) k
  = get s.(location) k.
Proof.
  intros Hplain k Hk.
  pose proof (location_roundtrip s) as H.
  destruct (restoreLocationFromStorage _) as [s' e]. cbn [fst].
  destruct H as (_ & _ & H & _). rewrite H by exact Hk.
  specialize (Hplain k Hk). destruct (get (location s) k); try contradiction; reflexivity.
Qed.

(** ** Weather lemmas *)

Lemma fetchWeatherData_failed (now : Z) (r : response jsval) (s : svc) :
  fetch_failed r = true ->
  (fetchWeatherData now r s).2 = VNull
  /\ (fetchWeatherData now r s).1.(weatherData) = s.(weatherData)
  /\ (fetchWeatherData now r s).1.(storage) = s.(storage)
  /\ (fetchWeatherData now r s).1.(location) = s.(location).
Proof.
  intros Hr. unfold fetchWeatherData.
  destruct (_ || _); [repeat split|].
  destruct r as [| |[b|]]; try discriminate; repeat split.
Qed.

Lemma fetchForecastData_failed (now : Z) (r : response jsval) (s : svc) :
  fetch_failed r = true ->
  (fetchForecastData now r s).2 = VNull
  /\ (fetchForecastData now r s).1.(weatherData) = s.(weatherData)
  /\ (fetchForecastData now r s).1.(storage) = s.(storage)
  /\ (fetchForecastData now r s).1.(location) = s.(location).
Proof.
  intros Hr. unfold fetchForecastData.
  destruct (_ || _); [repeat split|].
  destruct r as [| |[b|]]; try discriminate; repeat split.
Qed.

(** ** C4: failed and partial weather refreshes *)

(** Claim C4: a failed [fetchWeatherData] or [fetchForecastData]
    (transport error, non-[ok] response, unreadable body) resolves to
    [null] and leaves the cached current and forecast payloads as they
    were; and in [getAllWeatherData], when the current-weather fetch
    succeeds with payload [p] at time [t1] and the forecast fetch fails,
    [current] becomes [p], [lastUpdate] becomes [t1], [forecast] keeps its
    previous value, and the weather record is persisted. *)
Theorem weather_failure_and_partial_refresh :
  (forall (now : Z) (r : response jsval) (s : svc), fetch_failed r = true ->
     (fetchWeatherData now r s).2 = VNull
     /\ get (fetchWeatherData now r s).1.(weatherData) "current" = get s.(weatherData) "current"
     /\ get (fetchWeatherData now r s).1.(weatherData) "forecast" = get s.(weatherData) "forecast"
     /\ (fetchForecastData now r s).2 = VNull
     /\ get (fetchForecastData now r s).1.(weatherData) "current" = get s.(weatherData) "current"
     /\ get (fetchForecastData now r s).1.(weatherData) "forecast" = get s.(weatherData) "forecast")
  /\ (forall (t1 t2 : Z) (p : jsval) (rf : response jsval) (s : svc),
     truthy (get s.(location) "latitude") = true ->
     truthy (get s.(location) "longitude") = true ->
     fetch_failed rf = true ->
     let '(s', res) := getAllWeatherData t1 t2 (RespOk (Some p)) rf s in
     res = VObj [("current", p); ("forecast", VNull)]
     /\ get s'.(weatherData) "current" = p
     /\ get s'.(weatherData) "forecast" = get s.(weatherData) "forecast"
     /\ get s'.(weatherData) "lastUpdate" = VDate t1
     /\ s'.(storage) !! "weatherData"
          = Some (SJson (to_json (VObj (weather_fields s'.(weatherData)))))).
Proof.
  split.
  - intros now r s Hr.
    destruct (fetchWeatherData_failed now r s Hr) as (H1 & H2 & _).
    destruct (fetchForecastData_failed now r s Hr) as (H3 & H4 & _).
    rewrite H1, H2, H3, H4. repeat split.
  - intros t1 t2 p rf s Hlat Hlon Hrf.
    unfold getAllWeatherData.
    unfold fetchWeatherData at 1. rewrite Hlat, Hlon. cbn [negb orb].
    set (s4 := saveWeatherToStorage _).
    assert (Hloc : s4.(location) = s.(location)) by reflexivity.
    destruct (fetchForecastData_failed t2 rf s4 Hrf) as (H1 & H2 & H3 & _).
    destruct (fetchForecastData t2 rf s4) as [s5 f] eqn:E. cbn [fst snd] in *.
    subst f. rewrite H2, H3.
    subst s4. cbn [saveWeatherToStorage with_storage with_weatherData weatherData storage issue].
    rewrite !get_set. cbn [String.eqb Ascii.eqb Bool.eqb andb].
    repeat split. apply lookup_insert_eq.
Qed.

(** ** C10: failed weather fetches are atomic *)

(** Claim C10: a failed [fetchWeatherData] or [fetchForecastData]
    resolves to [null] and leaves the whole weather record (payloads and
    [lastUpdate]) and all of [localStorage] as they were. *)
Theorem weather_failure_atomic (now : Z) (r : response jsval) (s : svc) :
  fetch_failed r = true ->
  (fetchWeatherData now r s).2 = VNull
  /\ (fetchWeatherData now r s).1.(weatherData) = s.(weatherData)
  /\ (fetchWeatherData now r s).1.(storage) = s.(storage)
  /\ (fetchForecastData now r s).2 = VNull
  /\ (fetchForecastData now r s).1.(weatherData) = s.(weatherData)
  /\ (fetchForecastData now r s).1.(storage) = s.(storage).
Proof.
  intros Hr.
  destruct (fetchWeatherData_failed now r s Hr) as (H1 & H2 & H3 & _).
  destruct (fetchForecastData_failed now r s Hr) as (H4 & H5 & H6 & _).
  repeat split; assumption.
Qed.

Lemma weather_failure_atomic_witness :
  fetch_failed (@RespNetError jsval) = true
  /\ (fetchWeatherData t0 RespNetError kl_state).1.(storage) = kl_state.(storage).
Proof.
  split; [reflexivity|].
  exact (proj1 (proj2 (proj2 (weather_failure_atomic t0 RespNetError kl_state eq_refl)))).
Defined.

(** ** C9: a zero coordinate counts as missing *)

Lemma coordinate_guard (s : svc) :
  (get s.(location) "latitude" = VNum 0 \/ get s.(location) "latitude" = VNull)
  \/ (get s.(location) "longitude" = VNum 0 \/ get s.(location) "longitude" = VNull) ->
  negb (truthy (get s.(location) "latitude")) || negb (truthy (get s.(location) "longitude"))
  = true.
Proof.
  intros [[-> | ->] | [-> | ->]]; cbn [truthy negb orb];
    try reflexivity; apply orb_true_r.
Qed.

(** Claim C9: when latitude or longitude is the number 0, each operation
    guarded on the coordinates behaves exactly as when that coordinate is
    [null]: [isLocationValid] is false, [reverseGeocode] returns at once
    without a request or a state change, and [fetchWeatherData] and
    [fetchForecastData] resolve to [null] without a request or a state
    change. *)
Theorem zero_coordinate_treated_as_missing (now : Z) (m : Q)
  (g : response (list candidate)) (rw rf : response jsval) (s : svc) :
  (get s.(location) "latitude" = VNum 0 \/ get s.(location) "latitude" = VNull)
  \/ (get s.(location) "longitude" = VNum 0 \/ get s.(location) "longitude" = VNull) ->
  isLocationValid now m s = false
  /\ reverseGeocode_begin s = None
  /\ reverseGeocode g s = (s, None)
  /\ fetchWeatherData now rw s = (s, VNull)
  /\ fetchForecastData now rf s = (s, VNull).
Proof.
  intros H. pose proof (coordinate_guard s H) as Hg.
  unfold isLocationValid, reverseGeocode, reverseGeocode_begin,
    fetchWeatherData, fetchForecastData.
  cbv zeta. rewrite Hg. repeat split.
Qed.

Lemma zero_coordinate_treated_as_missing_witness :
  ((get equator_state.(location) "latitude" = VNum 0
    \/ get equator_state.(location) "latitude" = VNull)
   \/ (get equator_state.(location) "longitude" = VNum 0
       \/ get equator_state.(location) "longitude" = VNull))
  /\ isLocationValid t0 5 equator_state = false.
Proof.
  split; [left; left; reflexivity|].
  apply (zero_coordinate_treated_as_missing t0 5 RespNetError RespNetError RespNetError).
  left; left; reflexivity.
Defined.

(** ** C2: isLocationValid *)

Lemma isLocationValid_coordinates_present (now t : Z) (m : Q) (s : svc) :
  truthy (get s.(location) "latitude") = true ->
  truthy (get s.(location) "longitude") = true ->
  (get s.(location) "lastUpdate" = VNull -> isLocationValid now m s = true)
  /\ (get s.(location) "lastUpdate" = VDate t ->
      isLocationValid now m s = true <-> (inject_Z (now - t) / inject_Z 60000 < m)%Q).
Proof.
  intros Hlat Hlon. unfold isLocationValid. cbv zeta. rewrite Hlat, Hlon.
  cbn [negb orb]. split.
  - intros ->. reflexivity.
  - intros ->. cbn [truthy date_value]. apply Qlt_bool_iff.
Qed.

Example isLocationValid_boundary :
  isLocationValid_default t0 (aged_state 299000) = true
  /\ isLocationValid_default t0 (aged_state 301000) = false.
Proof. split; vm_compute; reflexivity. Qed.

(** Claim C2 (code defect): the record of [equator_state] has non-null
    coordinates and a [null] [lastUpdate], yet [isLocationValid()] is
    false, because its guard [!this.location.latitude] also rejects the
    number 0; a latitude of 0.0001 gives true. *)
Lemma isLocationValid_zero_latitude :
  get equator_state.(location) "latitude" = VNum 0
  /\ get equator_state.(location) "lastUpdate" = VNull
  /\ isLocationValid_default t0 equator_state = false
  /\ isLocationValid_default t0
       (with_location equator_state
          (set equator_state.(location) "latitude" (VNum (1 # 10000)))) = true.
Proof. vm_compute. repeat split. Qed.

(** ** C5: naming a place *)

(** Claim C5 (as amended): with coordinates present, a geocoding answer
    whose first candidate has components [city], [state], [country]
    (absent ones read as "") sets [locationName] to "city, state" when
    city and state are non-empty, else "city, country" when the city is
    non-empty, else "state, country" when the state is non-empty, else
    the country alone, which is the empty string when no component
    resolves; the record is then persisted and nothing is thrown. *)
Theorem reverseGeocode_naming (s : svc) (geo : candidate) (rest : list candidate) :
  truthy (get s.(location) "latitude") = true ->
  truthy (get s.(location) "longitude") = true ->
  let city := default "" geo.(name) in
  let st := default "" geo.(state) in
  let ctry := default "" geo.(country) in
  let '(s', e) := reverseGeocode (RespOk (Some (geo :: rest))) s in
  e = None
  /\ get s'.(location) "locationName"
     = VStr (if negb (String.eqb city "") && negb (String.eqb st "") then city ++ ", " ++ st
             else if negb (String.eqb city "") then city ++ ", " ++ ctry
             else if negb (String.eqb st "") then st ++ ", " ++ ctry
             else ctry)
  /\ s'.(storage) !! "userLocation"
     = Some (SJson (to_json (VObj (location_fields s'.(location))))).
Proof.
  intros Hlat Hlon.
  unfold reverseGeocode, reverseGeocode_begin. cbv zeta. rewrite Hlat, Hlon.
  cbn [negb orb]. unfold reverseGeocode_end. cbv beta iota.
  cbn [saveLocationToStorage set_locationName with_location with_storage
       location storage issue].
  split; [reflexivity|]. split.
  - rewrite get_set. reflexivity.
  - apply lookup_insert_eq.
Qed.

Lemma reverseGeocode_naming_witness :
  truthy (get kl_state.(location) "latitude") = true
  /\ truthy (get kl_state.(location) "longitude") = true
  /\ (reverseGeocode (RespOk (Some [kl_candidate])) kl_state).2 = None.
Proof.
  split; [vm_compute; reflexivity|]. split; [vm_compute; reflexivity|].
  pose proof (reverseGeocode_naming kl_state kl_candidate []
                ltac:(vm_compute; reflexivity) ltac:(vm_compute; reflexivity)) as H.
  cbv zeta in H.
  destruct (reverseGeocode _ kl_state) as [s' e]. exact (proj1 H).
Defined.

Example kl_name :
  get (reverseGeocode (RespOk (Some [kl_candidate])) kl_state).1.(location) "locationName"
  = VStr "Kuala Lumpur, MY".
Proof. vm_compute. reflexivity. Qed.

(** Claim C5, refuted as stated: a candidate with no component does not
    leave [locationName] unset; it overwrites it with "". *)
Lemma reverseGeocode_no_component_sets_empty :
  get kl_state.(location) "locationName" = VNull
  /\ get (reverseGeocode (RespOk (Some [mk_candidate None None None])) kl_state).1.(location)
         "locationName" = VStr "".
Proof. split; vm_compute; reflexivity. Qed.

(** ** C3: the naming fallback after a committed fix *)

Lemma truthy_num (q : Q) : ~ (q == 0)%Q -> truthy (VNum q) = true.
Proof.
  intros Hq. cbn [truthy]. destruct (Qeq_bool q 0) eqn:E; [|reflexivity].
  apply Qeq_bool_iff in E. contradiction.
Qed.

(** Claim C3 (as amended): after a fix with non-zero latitude and
    longitude has been committed, the reverse geocoding it starts never
    throws; when it fails (transport error, non-[ok] response, unreadable
    body) [locationName] becomes "lat, lon" with both coordinates written
    with 4 decimals, in memory only: [localStorage] is exactly what the
    commit wrote, so a reload restores the name the record had before the
    acquisition; when the answer is an empty list [locationName] keeps
    the value it had before the acquisition. *)
Theorem acquire_and_name_fallback (now : Z) (c : coords)
  (g : response (list candidate)) (s : svc) :
  (c.(accuracy) <= inject_Z ACCURACY_THRESHOLD)%Q ->
  ~ (c.(latitude) == 0)%Q -> ~ (c.(longitude) == 0)%Q ->
  let '(s', res, e) := acquire_and_name true now (GeoPosition c) g s in
  e = None
  /\ res = Resolved (VObj (getCurrentLocation true now (GeoPosition c) s).1.1.(location))
  /\ (fetch_failed g = true ->
      get s'.(location) "locationName"
      = VStr (to_fixed 4 c.(latitude) ++ ", " ++ to_fixed 4 c.(longitude))
      /\ s'.(storage) = (getCurrentLocation true now (GeoPosition c) s).1.1.(storage)
      /\ get (restoreLocationFromStorage (reload s')).1.(location) "locationName"
         = to_json (get s.(location) "locationName"))
  /\ (g = RespOk (Some []) ->
      get s'.(location) "locationName" = get s.(location) "locationName").
Proof.
  intros Hacc Hlat Hlon.
  unfold acquire_and_name, getCurrentLocation. cbn [negb]. cbv iota.
  destruct (Qlt_bool (inject_Z ACCURACY_THRESHOLD) (accuracy c)) eqn:Hgate.
  { apply Qlt_bool_iff in Hgate. exfalso. exact (Qlt_not_le _ _ Hgate Hacc). }
  cbv beta iota zeta.
  set (s2 := saveLocationToStorage _).
  assert (Hg : get s2.(location) "latitude" = VNum c.(latitude)
               /\ get s2.(location) "longitude" = VNum c.(longitude)
               /\ get s2.(location) "locationName" = get s.(location) "locationName").
  { subst s2. cbn [location saveLocationToStorage with_storage with_location].
    rewrite !get_set. repeat split. }
  destruct Hg as (Hg1 & Hg2 & Hg3).
  assert (Hst : s2.(storage) !! "userLocation"
                = Some (SJson (to_json (VObj (location_fields s2.(location)))))).
  { subst s2. cbn [storage saveLocationToStorage with_storage]. apply lookup_insert_eq. }
  assert (Hn : get (json_fields (location_fields s2.(location))) "locationName"
               = to_json (get s.(location) "locationName")).
  { rewrite get_json_fields by apply location_fields_nodup.
    rewrite get_location_fields by (unfold location_keys; rewrite !elem_of_cons; tauto).
    rewrite Hg3. reflexivity. }
  unfold reverseGeocode_begin. cbv zeta.
  rewrite Hg1, Hg2, (truthy_num _ Hlat), (truthy_num _ Hlon). cbn [negb orb].
  cbv iota. unfold reverseGeocode_end.
  destruct g as [| |[data|]]; cbv iota beta; cbn [location issue];
    try (rewrite Hg1, Hg2; cbv iota).
  1-2, 4: (split; [reflexivity|]; split; [reflexivity|]; split;
     [intros _; split;
      [cbn [set_locationName with_location location]; rewrite get_set; reflexivity|];
      split; [reflexivity|];
      unfold restoreLocationFromStorage, reload;
      cbn [storage set_locationName issue with_location]; rewrite Hst;
      cbn [spread with_location location fst]; rewrite to_json_obj; cbn [spread];
      exact Hn
     |intros Hd; discriminate]).
  split; [reflexivity|]. split; [reflexivity|]. split; [intros Hf; discriminate|].
  intros Hd. injection Hd as ->.
  cbn [saveLocationToStorage with_storage location issue]. exact Hg3.
Qed.

Lemma acquire_and_name_fallback_witness :
  (accuracy kl_fix <= inject_Z ACCURACY_THRESHOLD)%Q
  /\ ~ (latitude kl_fix == 0)%Q /\ ~ (longitude kl_fix == 0)%Q
  /\ (acquire_and_name true t0 (GeoPosition kl_fix) RespNetError svc0).2 = None.
Proof.
  assert (Ha : (accuracy kl_fix <= inject_Z ACCURACY_THRESHOLD)%Q)
    by (apply Qle_bool_iff; reflexivity).
  assert (Hla : ~ (latitude kl_fix == 0)%Q)
    by (intros H; apply Qeq_bool_iff in H; discriminate H).
  assert (Hlo : ~ (longitude kl_fix == 0)%Q)
    by (intros H; apply Qeq_bool_iff in H; discriminate H).
  split; [exact Ha|]. split; [exact Hla|]. split; [exact Hlo|].
  pose proof (acquire_and_name_fallback t0 kl_fix RespNetError svc0 Ha Hla Hlo) as H.
  destruct (acquire_and_name _ _ _ _ _) as [[s' res] e]. exact (proj1 H).
Defined.

Example kl_fallback_name :
  match acquire_and_name true t0 (GeoPosition kl_fix) RespNetError svc0 with
  | (s, _, None) => get s.(location) "locationName"
  | _ => VUndef
  end = VStr "3.1390, 101.6869".
Proof. vm_compute. reflexivity. Qed.

(** Claim C3, refuted as stated: when the geocoding answer is an empty
    list, no fallback name is set; after the Kuala Lumpur fix the name
    stays [null]. *)
Lemma acquire_and_name_empty_answer :
  match acquire_and_name true t0 (GeoPosition kl_fix) (RespOk (Some [])) svc0 with
  | (s, Resolved _, None) => get s.(location) "locationName"
  | _ => VUndef
  end = VNull.
Proof. vm_compute. reflexivity. Qed.

(** * Further properties of the service *)

(** ** The auto-refresh timer *)

Lemma reverseGeocode_end_other_fields (g : response (list candidate)) (s : svc) (k : string) :
  k <> "locationName" ->
  get (reverseGeocode_end g s).1.(location) k = get s.(location) k.
Proof.
  intros Hk. unfold reverseGeocode_end.
  assert (Hset : forall v, get (set_locationName s v).(location) k = get s.(location) k).
  { intros v. cbn [set_locationName with_location location]. rewrite get_set.
    destruct (String.eqb_spec k "locationName"); [contradiction|reflexivity]. }
  destruct g as [| |[[|geo data]|]]; cbn [fst saveLocationToStorage with_storage location];
    try apply Hset; try reflexivity;
    destruct (get (location s) "latitude"), (get (location s) "longitude");
    cbn [fst]; try apply Hset; reflexivity.
Qed.

Lemma getCurrentLocation_committed_fields (now : Z) (r : geo_outcome) (s : svc) :
  map (get (getCurrentLocation true now r s).1.1.(location)) committed_keys
  = match r with
    | GeoPosition c =>
        if Qle_bool c.(accuracy) (inject_Z ACCURACY_THRESHOLD)
        then [VNum c.(latitude); VNum c.(longitude); VNum c.(accuracy);
              VStr "auto"; VDate now]
        else map (get s.(location)) committed_keys
    | GeoError _ => map (get s.(location)) committed_keys
    end.
Proof.
  destruct r as [c|code]; [|reflexivity].
  unfold getCurrentLocation. cbn [negb]. cbv iota. unfold Qlt_bool.
  destruct (Qle_bool (accuracy c) (inject_Z ACCURACY_THRESHOLD)); cbn [negb];
    cbv beta iota zeta; [|reflexivity].
  set (s2 := saveLocationToStorage _).
  assert (H : map (get s2.(location)) committed_keys
              = [VNum c.(latitude); VNum c.(longitude); VNum c.(accuracy);
                 VStr "auto"; VDate now]).
  { subst s2. cbn [location saveLocationToStorage with_storage with_location
                   committed_keys map].
    rewrite !get_set. reflexivity. }
  destruct (reverseGeocode_begin s2) as [s3|] eqn:Hb; cbn [fst]; [|exact H].
  apply reverseGeocode_begin_state in Hb as (-> & _). exact H.
Qed.

Lemma autoRefresh_tick_committed_fields (now : Z) (r : geo_outcome)
  (g : response (list candidate)) (s : svc) :
  map (get (autoRefresh_tick true now r g s).(location)) committed_keys
  = map (get (getCurrentLocation true now r s).1.1.(location)) committed_keys.
Proof.
  unfold autoRefresh_tick, acquire_and_name.
  destruct (getCurrentLocation true now r s) as [[s1 res] [|]]; cbn [fst]; [|reflexivity].
  destruct (reverseGeocode_end g s1) as [s2 e] eqn:E. cbn [fst].
  cbn [committed_keys map].
  pose proof (fun k H => reverseGeocode_end_other_fields g s1 k H) as Ho.
  rewrite E in Ho. cbn [fst] in Ho.
  rewrite !Ho by discriminate. reflexivity.
Qed.

Lemma last_accepted_gate ticks (t : Z) (c : coords) :
  last_accepted ticks = Some (t, c) -> (c.(accuracy) <= inject_Z ACCURACY_THRESHOLD)%Q.
Proof.
  induction ticks as [|[[now r] g] ticks IH]; cbn [last_accepted]; [discriminate|].
  destruct (last_accepted ticks) as [x|]; [intros H; apply IH; rewrite H; reflexivity|].
  destruct r as [c'|code]; [|discriminate].
  destruct (Qle_bool (accuracy c') (inject_Z ACCURACY_THRESHOLD)) eqn:E; [|discriminate].
  intros H. injection H as <- <-. apply Qle_bool_iff. exact E.
Qed.

(** The auto-refresh timer, with geolocation available: after any run of
    firings, the record holds the latitude, longitude, accuracy (at most
    50 m), source 'auto' and time of the last fix that passed the
    accuracy gate; when no fix passed, these five fields are as before the
    run.  Rejected fixes and platform errors never touch them, whatever the
    geocoding answers. *)
Theorem autoRefresh_run_last_fix
  (ticks : list (Z * geo_outcome * response (list candidate))) (s : svc) :
  match last_accepted ticks with
  | Some (t, c) =>
      (c.(accuracy) <= inject_Z ACCURACY_THRESHOLD)%Q
      /\ map (get (autoRefresh_run true ticks s).(location)) committed_keys
         = [VNum c.(latitude); VNum c.(longitude); VNum c.(accuracy); VStr "auto"; VDate t]
  | None =>
      map (get (autoRefresh_run true ticks s).(location)) committed_keys
      = map (get s.(location)) committed_keys
  end.
Proof.
  revert s. induction ticks as [|[[now r] g] ticks IH]; intros s; [reflexivity|].
  cbn [autoRefresh_run].
  specialize (IH (autoRefresh_tick true now r g s)).
  destruct (last_accepted ((now, r, g) :: ticks)) as [[t c]|] eqn:E.
  - split; [exact (last_accepted_gate _ _ _ E)|].
    cbn [last_accepted] in E.
    destruct (last_accepted ticks) as [[t' c']|].
    + injection E as <- <-. exact (proj2 IH).
    + rewrite IH, autoRefresh_tick_committed_fields, getCurrentLocation_committed_fields.
      destruct r as [c0|]; [|discriminate].
      destruct (Qle_bool _ _); [|discriminate]. injection E as <- <-. reflexivity.
  - cbn [last_accepted] in E.
    destruct (last_accepted ticks) as [x|]; [discriminate|].
    rewrite IH, autoRefresh_tick_committed_fields, getCurrentLocation_committed_fields.
    destruct r as [c0|]; [|reflexivity].
    destruct (Qle_bool _ _); [discriminate|reflexivity].
Qed.

(** Without geolocation support every firing rejects and the state never
    changes. *)
Theorem autoRefresh_run_unsupported
  (ticks : list (Z * geo_outcome * response (list candidate))) (s : svc) :
  autoRefresh_run false ticks s = s.
Proof.
  revert s. induction ticks as [|[[now r] g] ticks IH]; intros s; [reflexivity|].
  cbn [autoRefresh_run]. rewrite IH. reflexivity.
Qed.

(** ** init *)

(** [init()] after a page load never restores the weather cache (it stays
    at its initial value whatever [localStorage] holds); it replaces the
    location record by the stored object when there is one; and when the
    stored text is not JSON the restore throws and the auto-refresh
    interval is never scheduled. *)
Theorem init_after_reload (s : svc) :
  match init (reload s) with
  | (s1, e, scheduled) =>
      s1.(weatherData) = weatherData0
      /\ match s.(storage) !! "userLocation" with
         | Some (SJson v) => e = None /\ scheduled = true /\ s1.(location) = spread v
         | Some (SText t) =>
             if String.eqb t "" then e = None /\ scheduled = true /\ s1.(location) = location0
             else e = Some "SyntaxError" /\ scheduled = false /\ s1.(location) = location0
         | None => e = None /\ scheduled = true /\ s1.(location) = location0
         end
  end.
Proof.
  unfold init, restoreLocationFromStorage, reload. cbn [storage].
  destruct (storage s !! "userLocation") as [[v|t]|]; cbv iota; [repeat split| |repeat split].
  destruct (String.eqb t ""); repeat split.
Qed.

(** ** Display helpers *)

Lemma commit_location (now : Z) (c : coords) (s : svc) :
  Qle_bool c.(accuracy) (inject_Z ACCURACY_THRESHOLD) = true ->
  (getCurrentLocation true now (GeoPosition c) s).1.1.(location)
  = set (set (set (set (set s.(location) "latitude" (VNum c.(latitude)))
      "longitude" (VNum c.(longitude))) "accuracy" (VNum c.(accuracy)))
      "source" (VStr "auto")) "lastUpdate" (VDate now).
Proof.
  intros Hacc. unfold getCurrentLocation. cbn [negb]. cbv iota. unfold Qlt_bool.
  rewrite Hacc. cbn [negb]. cbv beta iota zeta.
  set (s2 := saveLocationToStorage _).
  destruct (reverseGeocode_begin s2) as [s3|] eqn:Hb; cbn [fst].
  - apply reverseGeocode_begin_state in Hb as (-> & _). reflexivity.
  - reflexivity.
Qed.

Lemma truthy_num_false (q : Q) : truthy (VNum q) = false -> (q == 0)%Q.
Proof.
  cbn [truthy]. destruct (Qeq_bool q 0) eqn:E; [|discriminate].
  intros _. apply Qeq_bool_iff. exact E.
Qed.

(** After an accepted fix with non-zero coordinates, while the record has
    no (truthy) name yet, [getDisplayLocation] shows the coordinates with 6
    decimals, [getCoordinatesString] shows them as "Lat: .., Lon: .." and
    [getAccuracyString] shows the accuracy rounded to whole metres. *)
Theorem display_after_commit (now : Z) (c : coords) (s : svc) :
  (c.(accuracy) <= inject_Z ACCURACY_THRESHOLD)%Q ->
  ~ (c.(latitude) == 0)%Q -> ~ (c.(longitude) == 0)%Q ->
  truthy (get s.(location) "locationName") = false ->
  let s1 := (getCurrentLocation true now (GeoPosition c) s).1.1 in
  getDisplayLocation s1
    = Returns (VStr (to_fixed 6 c.(latitude) ++ ", " ++ to_fixed 6 c.(longitude)))
  /\ getCoordinatesString s1
    = Returns (VStr ("Lat: " ++ to_fixed 6 c.(latitude) ++ ", Lon: "
                     ++ to_fixed 6 c.(longitude)))
  /\ getAccuracyString s1
    = Returns (VStr ("Accuracy: " ++ to_fixed 0 c.(accuracy) ++ " meters")).
Proof.
  intros Hacc Hlat Hlon Hname. cbv zeta.
  unfold getDisplayLocation, getCoordinatesString, getAccuracyString. cbv zeta.
  rewrite commit_location by (apply Qle_bool_iff; exact Hacc).
  rewrite !get_set. cbn [String.eqb Ascii.eqb Bool.eqb andb].
  rewrite Hname, (truthy_num _ Hlat), (truthy_num _ Hlon).
  repeat split.
Qed.

Lemma display_after_commit_witness :
  (accuracy kl_fix <= inject_Z ACCURACY_THRESHOLD)%Q
  /\ getDisplayLocation kl_state = Returns (VStr "3.139000, 101.686900").
Proof.
  assert (Ha : (accuracy kl_fix <= inject_Z ACCURACY_THRESHOLD)%Q)
    by (apply Qle_bool_iff; reflexivity).
  split; [exact Ha|].
  refine (proj1 (display_after_commit t0 kl_fix svc0 Ha _ _ eq_refl));
    intros H; apply Qeq_bool_iff in H; discriminate H.
Defined.

(** Once reverse geocoding has answered with a candidate, for a record
    with non-zero numeric coordinates, [getDisplayLocation] shows the
    derived place name, or the 6-decimal coordinates when that name is
    the empty string. *)
Theorem display_after_geocode (s : svc) (a b : Q) (geo : candidate) (rest : list candidate) :
  get s.(location) "latitude" = VNum a -> get s.(location) "longitude" = VNum b ->
  ~ (a == 0)%Q -> ~ (b == 0)%Q ->
  getDisplayLocation (reverseGeocode (RespOk (Some (geo :: rest))) s).1
  = Returns (VStr (if String.eqb (place_name geo) "" then to_fixed 6 a ++ ", " ++ to_fixed 6 b
                   else place_name geo)).
Proof.
  intros Ha Hb Ha0 Hb0.
  unfold reverseGeocode, reverseGeocode_begin. cbv zeta.
  rewrite Ha, Hb, (truthy_num _ Ha0), (truthy_num _ Hb0). cbn [negb orb].
  unfold reverseGeocode_end. cbv beta iota.
  unfold getDisplayLocation. cbv zeta.
  cbn [fst saveLocationToStorage set_locationName with_location with_storage location issue].
  rewrite !get_set. cbn [String.eqb Ascii.eqb Bool.eqb andb].
  rewrite Ha, Hb, (truthy_num _ Ha0), (truthy_num _ Hb0). cbn [truthy andb].
  destruct (String.eqb (place_name geo) ""); reflexivity.
Qed.

Lemma display_after_geocode_witness :
  get kl_state.(location) "latitude" = VNum (3139 # 1000)
  /\ getDisplayLocation (reverseGeocode (RespOk (Some [mk_candidate None None None])) kl_state).1
     = Returns (VStr "3.139000, 101.686900").
Proof.
  split; [vm_compute; reflexivity|].
  refine (eq_trans (display_after_geocode kl_state (3139 # 1000) (1016869 # 10000)
            (mk_candidate None None None) [] _ _ _ _) _);
    [vm_compute; reflexivity|vm_compute; reflexivity
    |intros H; apply Qeq_bool_iff in H; discriminate H
    |intros H; apply Qeq_bool_iff in H; discriminate H|vm_compute; reflexivity].
Defined.

(** With no (truthy) name and a latitude or longitude equal to 0, the
    display helpers report no location although coordinates are stored. *)
Theorem display_zero_coordinate (s : svc) :
  truthy (get s.(location) "locationName") = false ->
  get s.(location) "latitude" = VNum 0 \/ get s.(location) "longitude" = VNum 0 ->
  getDisplayLocation s = Returns (VStr "Location not detected")
  /\ getCoordinatesString s = Returns (VStr "Lat: --, Lon: --").
Proof.
  intros Hname Hz.
  assert (Hg : truthy (get s.(location) "latitude") && truthy (get s.(location) "longitude") = false).
  { destruct Hz as [-> | ->]; [reflexivity|apply andb_false_r]. }
  unfold getDisplayLocation, getCoordinatesString. cbv zeta.
  rewrite Hname, Hg. split; reflexivity.
Qed.

Lemma display_zero_coordinate_witness :
  get equator_state.(location) "latitude" = VNum 0
  /\ getCoordinatesString equator_state = Returns (VStr "Lat: --, Lon: --").
Proof.
  split; [reflexivity|].
  exact (proj2 (display_zero_coordinate equator_state eq_refl (or_introl eq_refl))).
Defined.

(** A record restored from a stored object that lacks the [accuracy]
    property makes [getAccuracyString] throw: its guard [!== null] lets
    [undefined] through to [toFixed]. *)
Theorem getAccuracyString_restored_without_accuracy (o : obj) (s : svc) :
  s.(storage) !! "userLocation" = Some (SJson (VObj o)) ->
  "accuracy" ∉ map fst o ->
  getAccuracyString (restoreLocationFromStorage s).1 = Throws "TypeError".
Proof.
  intros Hst Hk. unfold restoreLocationFromStorage. rewrite Hst.
  cbn [fst spread with_location]. unfold getAccuracyString.
  cbn [location]. rewrite get_notin by exact Hk. reflexivity.
Qed.

Lemma getAccuracyString_restored_without_accuracy_witness :
  getAccuracyString
    (restoreLocationFromStorage (with_storage svc0 {[ "userLocation" := SJson (VObj []) ]})).1
  = Throws "TypeError".
Proof.
  apply (getAccuracyString_restored_without_accuracy []).
  - apply lookup_singleton_eq.
  - cbn [map fst]. apply not_elem_of_nil.
Defined.

(** ** Weather cache persistence *)

Lemma to_json_id : forall v, is_json v = true -> to_json v = v.
Proof.
  fix IH 1. intros v H.
  destruct v as [| | | | | | l | o]; try reflexivity; try discriminate H.
  - cbn [is_json] in H. cbn [to_json]. f_equal.
    refine ((fix F (l : list jsval) : forallb is_json l = true ->
               map (fun x => match to_json x with VUndef => VNull | y => y end) l = l :=
               match l with
               | [] => fun _ => eq_refl
               | x :: l' => fun H => _
               end) l H).
    apply andb_prop in H as [Hx Hl]. cbn [map].
    rewrite (IH x Hx), (F l' Hl).
    destruct x; try discriminate Hx; reflexivity.
  - cbn [is_json] in H. rewrite to_json_obj. f_equal.
    refine ((fix G (o : obj) : forallb (fun kv => is_json kv.2) o = true ->
               json_fields o = o :=
               match o with
               | [] => fun _ => eq_refl
               | kx :: o' => fun H => _
               end) o H).
    destruct kx as [k x]. apply andb_prop in H as [Hx Ho]. cbn [snd] in Hx.
    cbn [json_fields]. rewrite (IH x Hx), (G o' Ho).
    destruct x; try discriminate Hx; reflexivity.
Qed.

Lemma get_weather_fields (w : obj) (k : string) :
  k ∈ ["current"; "forecast"; "lastUpdate"] -> get (weather_fields w) k = get w k.
Proof.
  rewrite !elem_of_cons, elem_of_nil.
  intros Hk. repeat destruct Hk as [->|Hk]; try reflexivity. contradiction.
Qed.

Lemma weather_fields_nodup (w : obj) : NoDup (map fst (weather_fields w)).
Proof.
  cbn [weather_fields map fst].
  repeat (apply NoDup_cons; split; [rewrite ?elem_of_cons, ?elem_of_nil; intuition discriminate|]).
  apply NoDup_nil_2.
Qed.

(** A successful [fetchWeatherData] with a JSON payload [p] survives a page
    reload: [restoreWeatherFromStorage] brings [current] back as [p], the
    forecast as the JSON image of the previous one, and [lastUpdate] as the
    ISO-8601 string of the fetch time. *)
Theorem weather_roundtrip (now : Z) (p : jsval) (s : svc) :
  truthy (get s.(location) "latitude") = true ->
  truthy (get s.(location) "longitude") = true ->
  is_json p = true ->
  match restoreWeatherFromStorage (reload (fetchWeatherData now (RespOk (Some p)) s).1) with
  | (s2, e) =>
      e = None
      /\ get s2.(weatherData) "current" = p
      /\ get s2.(weatherData) "forecast" = to_json (get s.(weatherData) "forecast")
      /\ get s2.(weatherData) "lastUpdate" = VStr (to_iso now)
  end.
Proof.
  intros Hlat Hlon Hp.
  unfold fetchWeatherData. cbv zeta. rewrite Hlat, Hlon. cbn [negb orb]. cbv iota.
  unfold restoreWeatherFromStorage, reload.
  cbn [fst storage saveWeatherToStorage with_storage]. rewrite lookup_insert_eq.
  cbn [spread with_weatherData weatherData]. rewrite to_json_obj. cbn [spread].
  assert (Hg : forall k, k ∈ ["current"; "forecast"; "lastUpdate"] ->
     get (json_fields (weather_fields (set (set (weatherData (issue s (ReqWeather
       (get (location s) "latitude") (get (location s) "longitude")))) "current" p)
       "lastUpdate" (VDate now)))) k
     = to_json (get (set (set (weatherData s) "current" p) "lastUpdate" (VDate now)) k)).
  { intros k Hk. rewrite get_json_fields by apply weather_fields_nodup.
    rewrite get_weather_fields by exact Hk. reflexivity. }
  rewrite !Hg by (rewrite !elem_of_cons; tauto).
  rewrite !get_set. cbn [String.eqb Ascii.eqb Bool.eqb andb].
  split; [reflexivity|]. split; [apply to_json_id; exact Hp|]. split; reflexivity.
Qed.

Lemma weather_roundtrip_witness :
  truthy (get kl_state.(location) "latitude") = true
  /\ (restoreWeatherFromStorage
        (reload (fetchWeatherData t0 (RespOk (Some (VObj [("temp", VNum 30)]))) kl_state).1)).2
     = None.
Proof.
  split; [vm_compute; reflexivity|].
  pose proof (weather_roundtrip t0 (VObj [("temp", VNum 30)]) kl_state
                ltac:(vm_compute; reflexivity) ltac:(vm_compute; reflexivity)
                eq_refl) as H.
  destruct (restoreWeatherFromStorage _) as [s2 e]. exact (proj1 H).
Defined.

(** Restoring the weather cache twice gives what restoring it once gives. *)
Theorem restoreWeatherFromStorage_idempotent (s : svc) :
  restoreWeatherFromStorage (restoreWeatherFromStorage s).1 = restoreWeatherFromStorage s.
Proof.
  unfold restoreWeatherFromStorage.
  destruct (storage s !! "weatherData") as [[v|t]|] eqn:E; cbn [fst].
  - cbn [with_weatherData storage]. rewrite E. reflexivity.
  - destruct (String.eqb t "") eqn:Et; cbn [fst]; rewrite E; cbv iota; rewrite Et;
      reflexivity.
  - rewrite E. reflexivity.
Qed.

(** [getAllWeatherData] with coordinates present: when both fetches
    succeed, the record holds both payloads with [lastUpdate] the time of
    the forecast fetch, is persisted, and both payloads are returned;
    when both fail, it resolves to two [null]s and leaves the weather
    record and [localStorage] as they were. *)
Theorem getAllWeatherData_outcomes (t1 t2 : Z) (p1 p2 : jsval) (r1 r2 : response jsval) (s : svc) :
  truthy (get s.(location) "latitude") = true ->
  truthy (get s.(location) "longitude") = true ->
  (match getAllWeatherData t1 t2 (RespOk (Some p1)) (RespOk (Some p2)) s with
   | (s', res) =>
       res = VObj [("current", p1); ("forecast", p2)]
       /\ get s'.(weatherData) "current" = p1
       /\ get s'.(weatherData) "forecast" = p2
       /\ get s'.(weatherData) "lastUpdate" = VDate t2
       /\ s'.(storage) !! "weatherData"
          = Some (SJson (to_json (VObj (weather_fields s'.(weatherData)))))
   end)
  /\ (fetch_failed r1 = true -> fetch_failed r2 = true ->
      match getAllWeatherData t1 t2 r1 r2 s with
      | (s', res) =>
          res = VObj [("current", VNull); ("forecast", VNull)]
          /\ s'.(weatherData) = s.(weatherData) /\ s'.(storage) = s.(storage)
      end).
Proof.
  intros Hlat Hlon. split.
  - unfold getAllWeatherData, fetchWeatherData. cbv zeta. rewrite Hlat, Hlon.
    cbn [negb orb]. cbv iota.
    unfold fetchForecastData. cbv zeta.
    cbn [location saveWeatherToStorage with_storage with_weatherData issue].
    rewrite Hlat, Hlon. cbn [negb orb]. cbv iota.
    cbn [fst snd weatherData storage saveWeatherToStorage with_storage with_weatherData issue].
    rewrite !get_set. cbn [String.eqb Ascii.eqb Bool.eqb andb].
    repeat split. apply lookup_insert_eq.
  - intros H1 H2. unfold getAllWeatherData.
    destruct (fetchWeatherData_failed t1 r1 s H1) as (Ha & Hb & Hc & _).
    destruct (fetchWeatherData t1 r1 s) as [s1 c] eqn:E1. cbn [fst snd] in *.
    destruct (fetchForecastData_failed t2 r2 s1 H2) as (Hd & He & Hf & _).
    destruct (fetchForecastData t2 r2 s1) as [s2 f] eqn:E2. cbn [fst snd] in *.
    subst c f. rewrite He, Hf. repeat split; assumption.
Qed.

Lemma getAllWeatherData_outcomes_witness :
  truthy (get kl_state.(location) "latitude") = true
  /\ (getAllWeatherData t0 t0 RespNetError RespNotOk kl_state).2
     = VObj [("current", VNull); ("forecast", VNull)].
Proof.
  split; [vm_compute; reflexivity|].
  pose proof (proj2 (getAllWeatherData_outcomes t0 t0 VNull VNull RespNetError RespNotOk
                       kl_state ltac:(vm_compute; reflexivity) ltac:(vm_compute; reflexivity))
                    eq_refl eq_refl) as H.
  destruct (getAllWeatherData _ _ _ _ _) as [s' res]. exact (proj1 H).
Defined.

(** ** Fallback names are not persisted *)

(** An accepted fix with non-zero coordinates whose reverse geocoding
    fails: the record shows the 4-decimal coordinates as its name, but
    [localStorage] was written before the lookup and not again, so after a
    page reload the restored record has the fix's coordinates and the
    name the record had before the fix (as JSON), not the fallback. *)
Theorem geocode_fallback_not_persisted (now : Z) (c : coords)
  (g : response (list candidate)) (s : svc) :
  (c.(accuracy) <= inject_Z ACCURACY_THRESHOLD)%Q ->
  ~ (c.(latitude) == 0)%Q -> ~ (c.(longitude) == 0)%Q ->
  fetch_failed g = true ->
  let s' := (acquire_and_name true now (GeoPosition c) g s).1.1 in
  get s'.(location) "locationName"
    = VStr (to_fixed 4 c.(latitude) ++ ", " ++ to_fixed 4 c.(longitude))
  /\ get (restoreLocationFromStorage (reload s')).1.(location) "locationName"
     = to_json (get s.(location) "locationName")
  /\ get (restoreLocationFromStorage (reload s')).1.(location) "latitude"
     = VNum c.(latitude)
  /\ get (restoreLocationFromStorage (reload s')).1.(location) "longitude"
     = VNum c.(longitude).
Proof.
  intros Hacc Hlat Hlon Hg. cbv zeta.
  apply Qle_bool_iff in Hacc.
  unfold acquire_and_name, getCurrentLocation. cbn [negb]. cbv iota. unfold Qlt_bool.
  rewrite Hacc. cbn [negb]. cbv beta iota zeta.
  set (l := set (set (set (set (set s.(location) "latitude" (VNum c.(latitude)))
      "longitude" (VNum c.(longitude))) "accuracy" (VNum c.(accuracy)))
      "source" (VStr "auto")) "lastUpdate" (VDate now)).
  assert (Ha : get l "latitude" = VNum c.(latitude)) by (subst l; rewrite !get_set; reflexivity).
  assert (Hb : get l "longitude" = VNum c.(longitude)) by (subst l; rewrite !get_set; reflexivity).
  assert (Hn : get l "locationName" = get s.(location) "locationName")
    by (subst l; rewrite !get_set; reflexivity).
  unfold reverseGeocode_begin.
  cbn [saveLocationToStorage with_storage with_location location].
  rewrite Ha, Hb, (truthy_num _ Hlat), (truthy_num _ Hlon). cbn [negb orb]. cbv iota.
  destruct g as [| |[d|]]; [| |discriminate Hg|];
    unfold reverseGeocode_end; cbn [issue saveLocationToStorage with_storage with_location location]; rewrite Ha, Hb; cbv iota;
    cbn [fst set_locationName with_location location];
    (split; [rewrite get_set; reflexivity|]);
    unfold restoreLocationFromStorage, reload; cbn [storage set_locationName issue saveLocationToStorage with_storage with_location]; rewrite lookup_insert_eq;
    cbn [spread with_location location]; rewrite to_json_obj; cbn [spread fst with_location location];
    rewrite !get_json_fields by apply location_fields_nodup;
    rewrite !get_location_fields by (unfold location_keys; rewrite !elem_of_cons; tauto);
    rewrite Ha, Hb, Hn; repeat split.
Qed.

Lemma geocode_fallback_not_persisted_witness :
  get (restoreLocationFromStorage
         (reload (acquire_and_name true t0 (GeoPosition kl_fix) RespNetError svc0).1.1)).1.(location)
      "locationName" = VNull.
Proof.
  refine (proj1 (proj2 (geocode_fallback_not_persisted t0 kl_fix RespNetError svc0
                          ltac:(apply Qle_bool_iff; reflexivity)
                          ltac:(intros H; apply Qeq_bool_iff in H; discriminate H)
                          ltac:(intros H; apply Qeq_bool_iff in H; discriminate H)
                          eq_refl))).
Defined.
